(** * Portfolio optimizer: return/risk estimation, Monte Carlo sampling,
      efficient frontier and closest allocation

    A shallow embedding of the numeric core of [portfolio_optimizer.ipynb].

    numpy's float64 values are modelled as extended reals: a finite value
    carries a real number and finite arithmetic is exact (rounding and the
    sign of zero are abstracted away), while the two infinities and NaN
    follow the IEEE 754 rules numpy implements.  numpy reports division by
    zero and invalid operations as warnings, never as exceptions; the only
    exception the modelled functions can raise is [ValueError]. *)

From Stdlib Require Import Reals Lra Lia Psatz ZArith String Bool List.
Import ListNotations.

Open Scope R_scope.

(** ** float64 values *)

Inductive npfloat : Type :=
| Fin (r : R)
| PInf
| NInf
| NaN.

(** Exceptions of the modelled code and the outcome of a call. *)
Inductive exn : Type :=
| ValueError.

Inductive result (A : Type) : Type :=
| Ok (a : A)
| Raise (e : exn).

Arguments Ok {A} a.
Arguments Raise {A} e.

Module Np.

(** Sign of a real, as a three-way comparison with zero. *)
Definition sgn (r : R) : comparison :=
  match total_order_T r 0 with
  | inleft (left _) => Lt
  | inleft (right _) => Eq
  | inright _ => Gt
  end.

Definition isnan (x : npfloat) : bool :=
  match x with NaN => true | _ => false end.

Definition isfinite (x : npfloat) : bool :=
  match x with Fin _ => true | _ => false end.

Definition neg (x : npfloat) : npfloat :=
  match x with
  | Fin a => Fin (- a)
  | PInf => NInf
  | NInf => PInf
  | NaN => NaN
  end.

Definition add (x y : npfloat) : npfloat :=
  match x, y with
  | NaN, _ | _, NaN => NaN
  | Fin a, Fin b => Fin (a + b)
  | PInf, NInf | NInf, PInf => NaN
  | PInf, _ | _, PInf => PInf
  | NInf, _ | _, NInf => NInf
  end.

Definition sub (x y : npfloat) : npfloat := add x (neg y).

(** An infinity multiplied by the sign of a finite factor. *)
Definition signed_inf (positive : bool) (c : comparison) : npfloat :=
  match c with
  | Eq => NaN
  | Gt => if positive then PInf else NInf
  | Lt => if positive then NInf else PInf
  end.

Definition mul (x y : npfloat) : npfloat :=
  match x, y with
  | NaN, _ | _, NaN => NaN
  | Fin a, Fin b => Fin (a * b)
  | Fin a, PInf | PInf, Fin a => signed_inf true (sgn a)
  | Fin a, NInf | NInf, Fin a => signed_inf false (sgn a)
  | PInf, PInf | NInf, NInf => PInf
  | PInf, NInf | NInf, PInf => NInf
  end.

(** True division.  A finite non-zero value over zero is an infinity of
    the numerator's sign, zero over zero is NaN. *)
Definition div (x y : npfloat) : npfloat :=
  match x, y with
  | NaN, _ | _, NaN => NaN
  | Fin a, Fin b =>
      match sgn b with
      | Eq => signed_inf true (sgn a)
      | _ => Fin (a / b)
      end
  | Fin _, PInf | Fin _, NInf => Fin 0
  | PInf, Fin b => match sgn b with Lt => NInf | _ => PInf end
  | NInf, Fin b => match sgn b with Lt => PInf | _ => NInf end
  | PInf, PInf | PInf, NInf | NInf, PInf | NInf, NInf => NaN
  end.

Definition sqrt (x : npfloat) : npfloat :=
  match x with
  | Fin a => match sgn a with Lt => NaN | _ => Fin (R_sqrt.sqrt a) end
  | PInf => PInf
  | NInf | NaN => NaN
  end.

Definition abs (x : npfloat) : npfloat :=
  match x with
  | Fin a => Fin (Rabs a)
  | PInf | NInf => PInf
  | NaN => NaN
  end.

Definition log (x : npfloat) : npfloat :=
  match x with
  | Fin a =>
      match sgn a with
      | Lt => NaN
      | Eq => NInf
      | Gt => Fin (ln a)
      end
  | PInf => PInf
  | NInf | NaN => NaN
  end.

(** [x <= y] as numpy compares floats: false as soon as one side is NaN. *)
Definition le (x y : npfloat) : Prop :=
  match x, y with
  | NaN, _ | _, NaN => False
  | Fin a, Fin b => a <= b
  | NInf, _ => True
  | _, PInf => True
  | _, _ => False
  end.

(** Python truthiness of a number: zero is falsy, everything else
    (NaN included) is truthy. *)
Definition truthy (x : npfloat) : bool :=
  match x with
  | Fin a => match sgn a with Eq => false | _ => true end
  | _ => true
  end.

(** [np.sum] of a vector. *)
Definition sum (l : list npfloat) : npfloat :=
  fold_right add (Fin 0) l.

(** Elementwise combination of two vectors of the same length. *)
Fixpoint zip_with {A B C : Type} (f : A -> B -> C)
         (l : list A) (l' : list B) : list C :=
  match l, l' with
  | a :: t, b :: t' => f a b :: zip_with f t t'
  | _, _ => []
  end.

(** [np.dot] of two vectors. *)
Definition dot (u v : list npfloat) : npfloat :=
  sum (zip_with mul u v).

(** [np.dot] of a matrix (a list of rows) and a vector. *)
Definition matvec (m : list (list npfloat)) (v : list npfloat)
  : list npfloat :=
  map (fun row => dot row v) m.

(** [np.nanmean] of a vector: the NaN entries are left out of both the
    sum and the count; a vector with nothing left has mean 0/0 = NaN. *)
Definition nanmean (l : list npfloat) : npfloat :=
  let kept := filter (fun x => negb (isnan x)) l in
  div (sum kept) (Fin (INR (length kept))).

(** pandas [Series.min] and [Series.max]: NaN entries are skipped, and
    the answer is NaN when nothing is left. *)
Definition min2 (x y : npfloat) : npfloat :=
  match x, y with
  | NaN, z | z, NaN => z
  | NInf, _ | _, NInf => NInf
  | PInf, z | z, PInf => z
  | Fin a, Fin b => Fin (Rmin a b)
  end.

Definition max2 (x y : npfloat) : npfloat :=
  match x, y with
  | NaN, z | z, NaN => z
  | PInf, _ | _, PInf => PInf
  | NInf, z | z, NInf => z
  | Fin a, Fin b => Fin (Rmax a b)
  end.

Definition series_min (l : list npfloat) : npfloat := fold_right min2 NaN l.
Definition series_max (l : list npfloat) : npfloat := fold_right max2 NaN l.

End Np.

(** ** Data frames *)

(** A pandas DataFrame of floats: the column labels and the rows.  Its
    shape is [(length values, length columns)]. *)
Record DataFrame : Type := mkDataFrame {
  columns : list string;
  values : list (list npfloat)
}.

Definition ncols (df : DataFrame) : nat := length (columns df).
Definition nrows (df : DataFrame) : nat := length (values df).

(** Column [j] of a list of rows. *)
Definition column (j : nat) (rows : list (list npfloat)) : list npfloat :=
  map (fun row => nth j row NaN) rows.

(** [df.shift(1)]: every row moves down by one, the first row becomes NaN
    and the last one is dropped. *)
Definition shift1 (df : DataFrame) : list (list npfloat) :=
  match values df with
  | [] => []
  | _ :: _ => repeat NaN (ncols df) :: removelast (values df)
  end.

(** [log_ret = np.log(stocks / stocks.shift(1))]. *)
Definition log_ret (stocks : DataFrame) : DataFrame :=
  mkDataFrame (columns stocks)
    (Np.zip_with (Np.zip_with (fun p q => Np.log (Np.div p q)))
       (values stocks) (shift1 stocks)).

(** ** Return and risk estimation *)

(** A numpy array as [np.cov] may return it: zero-dimensional (its shape
    is the empty tuple) or a matrix. *)
Inductive ndarray : Type :=
| Scalar (v : npfloat)
| Matrix (m : list (list npfloat)).

(** How [np.cov(m, rowvar=False)] reads an input that has exactly one row.
    The documented reading takes every column as a variable, so the row is
    one observation of each.  numpy releases that transpose the input only
    when it has more than one row take the row itself as the single
    variable, observed once for each column. *)
Inductive single_row_reading : Type :=
| RowIsObservation
| RowIsVariable.

(** [np.nanmean(df, axis=0)]: one NaN-skipping mean for each column. *)
Definition nanmean_axis0 (df : DataFrame) : list npfloat :=
  map (fun j => Np.nanmean (column j (values df))) (seq 0 (ncols df)).

(** A variable minus its mean, [np.sum(c) / len(c)]. *)
Definition centred (c : list npfloat) : list npfloat :=
  let avg := Np.div (Np.sum c) (Fin (INR (length c))) in
  map (fun x => Np.sub x avg) c.

(** Entry (i, j) of the covariance of the columns of [rows]: the centred
    cross-products are scaled by [1 / (N - 1)], with [N - 1] replaced by 0
    when it is not positive.  NaN and infinite entries are not filtered. *)
Definition cov_entry (rows : list (list npfloat)) (i j : nat) : npfloat :=
  Np.mul (Np.dot (centred (column i rows)) (centred (column j rows)))
         (Np.div (Fin 1) (Fin (INR (length rows - 1)))).

(** The covariance of [n] columns, squeezed: a single variable gives a
    zero-dimensional array, no variable an empty matrix. *)
Definition cov_of_columns (rows : list (list npfloat)) (n : nat) : ndarray :=
  match n with
  | 1%nat => Scalar (cov_entry rows 0 0)
  | _ => Matrix (map (fun i => map (fun j => cov_entry rows i j) (seq 0 n))
                     (seq 0 n))
  end.

(** [arr * 252] on either kind of array. *)
Definition scale (k : npfloat) (a : ndarray) : ndarray :=
  match a with
  | Scalar v => Scalar (Np.mul v k)
  | Matrix m => Matrix (map (map (fun v => Np.mul v k)) m)
  end.

(** The frame [compute_random_allocations] returns: one row for each sampled
    portfolio, with the asset weights and the three metric columns, and the
    two attributes attached to it.  Asset labels are taken to be distinct
    from each other and from the three metric labels. *)
Record SampleFrame : Type := mkSampleFrame {
  assets : list string;
  weights : list (list npfloat);
  Return : list npfloat;
  Volatility : list npfloat;
  Sharpe : list npfloat;
  attrs_mean_return : list npfloat;
  attrs_log_return : DataFrame
}.

(** [np.random.random((n, k))] with the generator made explicit: [rnd i j]
    is the draw for row [i] and column [j]. *)
Definition random_matrix (rnd : nat -> nat -> R) (n k : nat)
  : list (list npfloat) :=
  map (fun i => map (fun j => Fin (rnd i j)) (seq 0 k)) (seq 0 n).

(** [(weights.T / np.sum(weights, axis=1)).T]: each row over its own sum. *)
Definition normalize (row : list npfloat) : list npfloat :=
  map (fun w => Np.div w (Np.sum row)) row.

(** Number of columns of a matrix given by its rows. *)
Definition mat_ncols (m : list (list npfloat)) : nat :=
  match m with
  | [] => 0%nat
  | r :: _ => length r
  end.

Definition check_sum (weights : list npfloat) : npfloat :=
  Np.sub (Np.sum weights) (Fin 1).

Definition get_return (mean_ret weights : list npfloat) : npfloat :=
  Np.mul (Np.sum (Np.zip_with Np.mul mean_ret weights)) (Fin 252).

(** [get_ret_vol_sr] reads the notebook's global [log_ret]; its two
    statistics, [log_ret.mean()] and [log_ret.cov() * 252], are the
    arguments [mean] and [cov] here.  Operands of different lengths make
    pandas and numpy raise [ValueError]. *)
Definition get_ret_vol_sr (mean : list npfloat) (cov : list (list npfloat))
           (weights : list npfloat) : result (list npfloat) :=
  if negb ((length mean =? length weights)%nat
           && forallb (fun row => (length row =? length weights)%nat) cov
           && (length cov =? length weights)%nat)
  then Raise ValueError else
  let ret := Np.mul (Np.sum (Np.zip_with Np.mul mean weights)) (Fin 252) in
  let vol := Np.sqrt (Np.dot weights (Np.matvec cov weights)) in
  let sr := Np.div ret vol in
  Ok [ret; vol; sr].

(** ** The constrained solver *)

(** What a call of [scipy.optimize.minimize] is given: the objective (with
    its [args] already applied), the initial guess, the bounds and the
    constraint dictionaries. *)
Inductive constraint_type : Type :=
| eq_constraint
| ineq_constraint.

Record constraint : Type := mkConstraint {
  ctype : constraint_type;
  cfun : list npfloat -> npfloat
}.

Record MinimizeProblem : Type := mkProblem {
  objective : list npfloat -> npfloat;
  x0 : list npfloat;
  bounds : list (npfloat * npfloat);
  constraints : list constraint
}.

(** The fields of [OptimizeResult] the notebook reads. *)
Record OptimizeResult : Type := mkOptimizeResult {
  x : list npfloat;
  fun_ : npfloat;
  success : bool
}.

(** [np.linspace(start, stop, num)] with the end point included. *)
Definition linspace (start stop : npfloat) (num : Z) : result (list npfloat) :=
  if (num <? 0)%Z then Raise ValueError else
  let n := Z.to_nat num in
  let delta := Np.sub stop start in
  match n with
  | 0%nat => Ok []
  | 1%nat => Ok [Np.add (Np.mul (Fin 0) delta) start]
  | S m =>
      let step := Np.div delta (Fin (INR m)) in
      Ok (map (fun i => Np.add (Np.mul (Fin (INR i)) step) start) (seq 0 m)
          ++ [stop])
  end.

(** Python's [v or 0] on an optional number: [None] and zero give 0. *)
Definition or_zero (v : option npfloat) : npfloat :=
  match v with
  | None => Fin 0
  | Some a => if Np.truthy a then a else Fin 0
  end.

(** The (0, 1) bounds and the uniform initial guess over [cols] assets. *)
Definition unit_bounds (cols : nat) : list (npfloat * npfloat) :=
  repeat (Fin 0, Fin 1) cols.

Definition uniform_guess (cols : nat) : list npfloat :=
  repeat (Np.div (Fin 1) (Fin (INR cols))) cols.

(** A pandas Series of floats: labels paired with values, in order. *)
Definition Series : Type := list (string * npfloat).

(** [s.iloc[:-2]], [s.iloc[-2]] and [s.iloc[-1]] of the Series that
    [find_best_allocation] returns: the allocation and its two metrics. *)
Definition allocation_of (s : Series) : list npfloat :=
  firstn (length s - 2) (map snd s).

Definition return_of (s : Series) : npfloat :=
  nth (length s - 2) (map snd s) NaN.

Definition volatility_of (s : Series) : npfloat :=
  nth (length s - 1) (map snd s) NaN.

(** ** The notebook's functions *)

Section Numpy.

(** The reading of single-row inputs by the installed [np.cov]. *)
Variable reading : single_row_reading.

(** [np.cov(rows, rowvar=False)] for a frame slice of [n] columns. *)
Definition np_cov (rows : list (list npfloat)) (n : nat) : ndarray :=
  match reading, rows with
  | RowIsVariable, [r] =>
      Scalar (cov_entry (map (fun j => [nth j r NaN]) (seq 0 n)) 0 0)
  | _, _ => cov_of_columns rows n
  end.

(** The covariance [compute_random_allocations] works with:
    [np.cov(log_return[1:], rowvar=False) * 252], replaced by the constant
    matrix [[252.]] when the result has an empty shape. *)
Definition return_covariance (log_return : DataFrame)
  : list (list npfloat) :=
  match scale (Fin 252) (np_cov (tl (values log_return)) (ncols log_return))
  with
  | Scalar _ => [[Fin 252]]
  | Matrix m => m
  end.

(** [np.tensordot] raises [ValueError] when the covariance does not have
    one column for each asset. *)
Definition compute_random_allocations (rnd : nat -> nat -> R)
           (log_return : DataFrame) (num_ports : Z) : result SampleFrame :=
  let ncols := ncols log_return in
  let mean_return := nanmean_axis0 log_return in
  if (num_ports <? 0)%Z then Raise ValueError else
  let weights := random_matrix rnd (Z.to_nat num_ports) ncols in
  let normed_weights := map normalize weights in
  let expected_return :=
    map (fun w => Np.sum (map (fun x => Np.mul x (Fin 252))
                              (Np.zip_with Np.mul mean_return w)))
        normed_weights in
  let return_covariance := return_covariance log_return in
  if negb (mat_ncols return_covariance =? ncols)%nat then Raise ValueError else
  let volatility :=
    map (fun w => Np.sqrt (Np.sum (Np.zip_with Np.mul w
                                     (Np.matvec return_covariance w))))
        normed_weights in
  Ok (mkSampleFrame (columns log_return) normed_weights
        expected_return volatility
        (Np.zip_with Np.div expected_return volatility)
        mean_return log_return).

(** [np.dot] with a zero-dimensional left operand multiplies elementwise. *)
Definition get_volatility (log_ret : DataFrame) (weights : list npfloat)
  : npfloat :=
  Np.sqrt
    (Np.dot weights
       (match scale (Fin 252) (np_cov (tl (values log_ret)) (ncols log_ret))
        with
        | Scalar c => map (fun w => Np.mul c w) weights
        | Matrix m => Np.matvec m weights
        end)).

(** [abs(des_ret - ret) + abs(des_vol - vol)]. *)
Definition minimize_difference (weights : list npfloat)
           (des_vol des_ret : npfloat) (log_ret : DataFrame)
           (mean_ret : list npfloat) : npfloat :=
  let ret := get_return mean_ret weights in
  let vol := get_volatility log_ret weights in
  Np.add (Np.abs (Np.sub des_ret ret)) (Np.abs (Np.sub des_vol vol)).

(** The arguments [compute_frontier] passes to [minimize] for one target
    return. *)
Definition frontier_problem (df : SampleFrame) (possible_return : npfloat)
  : MinimizeProblem :=
  let cols := length (assets df) in
  mkProblem
    (fun w => get_volatility (attrs_log_return df) w)
    (uniform_guess cols)
    (unit_bounds cols)
    [ mkConstraint eq_constraint check_sum;
      mkConstraint eq_constraint
        (fun w => Np.sub (get_return (attrs_mean_return df) w)
                         possible_return) ].

(** The arguments [find_best_allocation] passes to [minimize]. *)
Definition best_allocation_problem (log_return : DataFrame)
           (vol ret : option npfloat) : MinimizeProblem :=
  let cols := ncols log_return in
  let vol := or_zero vol in
  let ret := or_zero ret in
  let mean_return := nanmean_axis0 log_return in
  mkProblem
    (fun w => minimize_difference w vol ret log_return mean_return)
    (uniform_guess cols)
    (unit_bounds cols)
    [ mkConstraint eq_constraint check_sum;
      mkConstraint eq_constraint
        (fun w => Np.sub (get_return mean_return w) ret);
      mkConstraint eq_constraint
        (fun w => Np.sub (get_volatility log_return w) vol) ].

Section Solver.

(** [scipy.optimize.minimize], a deterministic function of its arguments. *)
Variable minimize : MinimizeProblem -> OptimizeResult.

(** The frontier as its rows, each a (Volatility, Return) pair. *)
Definition compute_frontier (df : SampleFrame) (n : Z)
  : result (list (npfloat * npfloat)) :=
  match linspace (Np.series_min (Return df)) (Np.series_max (Return df)) n with
  | Raise e => Raise e
  | Ok frontier_ret =>
      let frontier_volatility :=
        map (fun possible_return =>
               fun_ (minimize (frontier_problem df possible_return)))
            frontier_ret in
      Ok (combine frontier_volatility frontier_ret)
  end.

(** The [pd.Series] constructor raises [ValueError] when the data and the
    index differ in length.  The cache of [pn.cache] is transparent here:
    the function is deterministic. *)
Definition find_best_allocation (log_return : DataFrame)
           (vol ret : option npfloat) : result Series :=
  let opt := minimize (best_allocation_problem log_return vol ret) in
  let mean_return := nanmean_axis0 log_return in
  let ret := get_return mean_return (x opt) in
  let vol := get_volatility log_return (x opt) in
  if negb (length (x opt) =? ncols log_return)%nat then Raise ValueError else
  Ok (combine (columns log_return ++ ["Return"%string; "Volatility"%string])
              (x opt ++ [ret; vol])).

End Solver.

End Numpy.

(** ** Notions the properties are stated with *)

(** The covariance has one row and one column for each asset under either
    reading, unless the frame keeps a single observation row below its
    first row and does not have exactly one asset. *)
Definition cov_has_asset_shape (reading : single_row_reading)
           (lr : DataFrame) : Prop :=
  reading = RowIsObservation \/ nrows lr <> 2%nat \/ ncols lr = 1%nat.

(** The frame the sampler returns when it returns one. *)
Definition sampled_frame (reading : single_row_reading)
           (rnd : nat -> nat -> R) (lr : DataFrame) (n : Z) : SampleFrame :=
  let normed := map normalize (random_matrix rnd (Z.to_nat n) (ncols lr)) in
  let ret :=
    map (fun w => Np.sum (map (fun x => Np.mul x (Fin 252))
                              (Np.zip_with Np.mul (nanmean_axis0 lr) w)))
        normed in
  let vol :=
    map (fun w => Np.sqrt (Np.sum (Np.zip_with Np.mul w
                       (Np.matvec (return_covariance reading lr) w))))
        normed in
  mkSampleFrame (columns lr) normed ret vol (Np.zip_with Np.div ret vol)
    (nanmean_axis0 lr) lr.

(** A statement that holds under both readings. *)
Definition under_both_readings (P : single_row_reading -> Prop) : Prop :=
  P RowIsObservation /\ P RowIsVariable.

(** The real numbers a vector holds, and the sum of a list of reals. *)
Definition finite_values (l : list npfloat) : list R :=
  flat_map (fun v => match v with Fin r => [r] | _ => [] end) l.

Definition Rsum (l : list R) : R := fold_right Rplus 0 l.

(** Sample variance of a list of reals (denominator [N - 1]). *)
Definition sample_variance (l : list R) : R :=
  let avg := Rsum l / INR (length l) in
  Rsum (map (fun v => (v - avg) * (v - avg)) l) / INR (length l - 1).

(** A weight vector on the unit simplex: every weight between 0 and 1 as
    floats compare, and the weights add up to 1 within 1e-9. *)
Definition on_unit_simplex (w : list npfloat) : Prop :=
  Forall (fun v => Np.le (Fin 0) v /\ Np.le v (Fin 1)) w
  /\ exists s, Np.sum w = Fin s /\ Rabs (s - 1) <= 1 / 10 ^ 9.


(** A solver that stops before its first step: it hands back the initial
    guess and reports that it did not converge. *)
Definition solver_no_step (p : MinimizeProblem) : OptimizeResult :=
  mkOptimizeResult (x0 p) (objective p (x0 p)) false.

(** ** Sample inputs *)

(** One asset whose price stays at 1 and then drops to 0. *)
Definition prices_drop_to_zero : DataFrame :=
  mkDataFrame ["A"%string] [[Fin 1]; [Fin 1]; [Fin 0]].

(** One asset with a missing log return in the middle. *)
Definition returns_with_gap : DataFrame :=
  mkDataFrame ["A"%string] [[NaN]; [Fin 1]; [NaN]; [Fin 3]].

(** Two assets, the first with a missing log return in the middle. *)
Definition two_assets_with_gap : DataFrame :=
  mkDataFrame ["A"%string; "B"%string]
    [[NaN; NaN]; [Fin 1; Fin 1]; [NaN; Fin 2]; [Fin 3; Fin 3]].

(** One asset whose two log returns are 0.1 and 0.3. *)
Definition one_asset_returns : DataFrame :=
  mkDataFrame ["A"%string] [[NaN]; [Fin (1 / 10)]; [Fin (3 / 10)]].

(** One asset whose price never moves: its log returns are all zero. *)
Definition constant_price_returns : DataFrame :=
  mkDataFrame ["A"%string] [[NaN]; [Fin 0]; [Fin 0]].

(** One price row for one asset; three price rows for no asset at all; two
    price rows for two assets. *)
Definition single_price : DataFrame := mkDataFrame ["A"%string] [[Fin 100]].

Definition no_asset_prices : DataFrame := mkDataFrame [] [[]; []; []].

Definition two_days_two_assets : DataFrame :=
  mkDataFrame ["A"%string; "B"%string] [[Fin 1; Fin 2]; [Fin 1; Fin 2]].

(** A frame of two sampled portfolios with returns 1 and 2. *)
Definition two_point_sample : SampleFrame :=
  mkSampleFrame ["A"%string] [[Fin 1]; [Fin 1]] [Fin 1; Fin 2]
    [Fin 1; Fin 1] [Fin 1; Fin 2] [Fin 0] one_asset_returns.

(** ** Further code of the notebook *)

(** [neg_sharpe(weights)]: [get_ret_vol_sr(weights)[2] * -1]. *)
Definition neg_sharpe (mean : list npfloat) (cov : list (list npfloat))
           (weights : list npfloat) : result npfloat :=
  match get_ret_vol_sr mean cov weights with
  | Ok arr => Ok (Np.mul (nth 2 arr NaN) (Fin (-1)))
  | Raise e => Raise e
  end.

(** [minimize_volatility(weights)]: [get_ret_vol_sr(weights)[1]]. *)
Definition minimize_volatility (mean : list npfloat)
           (cov : list (list npfloat)) (weights : list npfloat)
  : result npfloat :=
  match get_ret_vol_sr mean cov weights with
  | Ok arr => Ok (nth 1 arr NaN)
  | Raise e => Raise e
  end.




(** Entry (i, j) of a matrix given by its rows. *)
Definition mat_entry (m : list (list npfloat)) (i j : nat) : npfloat :=
  nth j (nth i m []) NaN.


(** A float that is not negative: a finite number at least 0, plus
    infinity, or NaN. *)
Definition not_negative (v : npfloat) : Prop :=
  match v with
  | Fin r => 0 <= r
  | NInf => False
  | PInf | NaN => True
  end.





(** * Properties *)

(** ** Evaluating the arithmetic *)

Lemma sgn_pos (r : R) : 0 < r -> Np.sgn r = Gt.
Proof.
  intros H. unfold Np.sgn.
  destruct (total_order_T r 0) as [[Hlt | Heq] | Hgt]; trivial; lra.
Qed.

Lemma sgn_neg (r : R) : r < 0 -> Np.sgn r = Lt.
Proof.
  intros H. unfold Np.sgn.
  destruct (total_order_T r 0) as [[Hlt | Heq] | Hgt]; trivial; lra.
Qed.

Lemma sgn_zero (r : R) : r = 0 -> Np.sgn r = Eq.
Proof.
  intros H. unfold Np.sgn.
  destruct (total_order_T r 0) as [[Hlt | Heq] | Hgt]; trivial; lra.
Qed.

Lemma sgn_Eq_inv (r : R) : Np.sgn r = Eq -> r = 0.
Proof.
  unfold Np.sgn.
  destruct (total_order_T r 0) as [[Hlt | Heq] | Hgt]; congruence.
Qed.

Lemma sgn_Lt_inv (r : R) : Np.sgn r = Lt -> r < 0.
Proof.
  unfold Np.sgn.
  destruct (total_order_T r 0) as [[Hlt | Heq] | Hgt]; congruence.
Qed.

(** Settles every sign test whose argument [lra] can place. *)
Ltac sgn_eval :=
  repeat match goal with
    | |- context [Np.sgn ?r] =>
        first [ rewrite (sgn_pos r) by lra
              | rewrite (sgn_neg r) by lra
              | rewrite (sgn_zero r) by lra ]
    end.

Ltac np_eval := repeat (progress (cbn; sgn_eval)).

(** Equality of two evaluated structures, down to the real numbers. *)
Ltac np_same := repeat (f_equal; try lra).

Lemma div_fin (a b : R) : b <> 0 -> Np.div (Fin a) (Fin b) = Fin (a / b).
Proof.
  intros Hb. cbn.
  destruct (Np.sgn b) eqn:E; trivial.
  apply sgn_Eq_inv in E. contradiction.
Qed.

Lemma sqrt_fin (a : R) : 0 <= a -> Np.sqrt (Fin a) = Fin (sqrt a).
Proof.
  intros Ha. cbn.
  destruct (Np.sgn a) eqn:E; trivial.
  apply sgn_Lt_inv in E. lra.
Qed.

Lemma sum_map_Fin (l : list R) : Np.sum (map Fin l) = Fin (Rsum l).
Proof.
  induction l as [| a l IH]; cbn; trivial.
  unfold Np.sum in IH. rewrite IH. reflexivity.
Qed.

Lemma length_seq_map {A : Type} (f : nat -> A) (s n : nat) :
  length (map f (seq s n)) = n.
Proof. now rewrite length_map, length_seq. Qed.

(** ** Mean return and missing values *)

(** Entries that are missing or finite: what is left after the NaN filter
    is the list of the finite values. *)
Lemma filter_notnan_finite (l : list npfloat) :
  Forall (fun v => v = NaN \/ exists r, v = Fin r) l ->
  filter (fun v => negb (Np.isnan v)) l = map Fin (finite_values l).
Proof.
  induction 1 as [| v l Hv _ IH]; cbn; trivial.
  destruct Hv as [-> | [r ->]]; cbn; now rewrite IH.
Qed.

Lemma finite_values_nonempty (l : list npfloat) (r : R) :
  In (Fin r) l -> (0 < length (finite_values l))%nat.
Proof.
  unfold finite_values.
  induction l as [| v l IH]; cbn; [tauto |].
  intros [-> | Hin]; cbn; [lia |].
  rewrite length_app. specialize (IH Hin). lia.
Qed.

Lemma nanmean_finite (l : list npfloat) (r : R) :
  Forall (fun v => v = NaN \/ exists r, v = Fin r) l ->
  In (Fin r) l ->
  Np.nanmean l
  = Fin (Rsum (finite_values l) / INR (length (finite_values l))).
Proof.
  intros Hall Hin. unfold Np.nanmean.
  rewrite (filter_notnan_finite l Hall), sum_map_Fin, length_map.
  apply div_fin.
  apply not_0_INR.
  pose proof (finite_values_nonempty l r Hin). lia.
Qed.

Lemma nth_nanmean_axis0 (lr : DataFrame) (j : nat) :
  (j < ncols lr)%nat ->
  nth j (nanmean_axis0 lr) NaN = Np.nanmean (column j (values lr)).
Proof.
  intros Hj. unfold nanmean_axis0.
  rewrite (nth_indep _ NaN (Np.nanmean (column 0 (values lr))))
    by (now rewrite length_seq_map).
  rewrite (map_nth (fun j => Np.nanmean (column j (values lr)))).
  now rewrite seq_nth.
Qed.

Lemma log_ret_prices_drop_to_zero :
  log_ret prices_drop_to_zero
  = mkDataFrame ["A"%string] [[NaN]; [Fin 0]; [NInf]].
Proof.
  unfold log_ret, prices_drop_to_zero. np_eval.
  replace (1 / 1) with 1 by lra.
  rewrite ln_1. reflexivity.
Qed.

(** C1, counterexample: the asset has a valid return period (the flat day,
    log return 0) next to the infinite log return of the day its price
    reaches zero; [np.nanmean] keeps the infinite entry and the mean return
    is minus infinity, not a finite number. *)
Lemma C1_mean_keeps_infinite_entries :
  In (Fin 0) (column 0 (values (log_ret prices_drop_to_zero)))
  /\ nanmean_axis0 (log_ret prices_drop_to_zero) = [NInf].
Proof.
  rewrite log_ret_prices_drop_to_zero. split.
  - cbn. tauto.
  - unfold nanmean_axis0, Np.nanmean. np_eval. reflexivity.
Qed.

(** C1, as amended: the mean return of an asset leaves the NaN entries of
    its column out of both the sum and the count (missing, not zero): when
    every entry of the column is NaN or finite and one at least is finite,
    the mean is the finite arithmetic mean of the finite entries. *)
Theorem C1_mean_return_skips_nan (lr : DataFrame) (j : nat) (r : R) :
  (j < ncols lr)%nat ->
  Forall (fun v => v = NaN \/ exists a, v = Fin a) (column j (values lr)) ->
  In (Fin r) (column j (values lr)) ->
  nth j (nanmean_axis0 lr) NaN
  = Fin (Rsum (finite_values (column j (values lr)))
         / INR (length (finite_values (column j (values lr))))).
Proof.
  intros Hj Hall Hin.
  rewrite (nth_nanmean_axis0 lr j Hj).
  exact (nanmean_finite _ r Hall Hin).
Qed.

Lemma C1_mean_return_skips_nan_witness :
  nth 0 (nanmean_axis0 returns_with_gap) NaN
  = Fin (Rsum (finite_values (column 0 (values returns_with_gap)))
         / INR (length (finite_values (column 0 (values returns_with_gap))))).
Proof.
  apply (C1_mean_return_skips_nan returns_with_gap 0 1).
  - cbn. lia.
  - cbn. repeat (apply Forall_cons; [eauto |]). apply Forall_nil.
  - cbn. tauto.
Defined.

(** The mean of [returns_with_gap] is (1 + 3) / 2: the gap is not counted
    as a zero return. *)
Example mean_of_returns_with_gap :
  nanmean_axis0 returns_with_gap = [Fin 2].
Proof.
  unfold nanmean_axis0, Np.nanmean. np_eval. np_same.
Qed.

(** With at least two observation rows the reading plays no part. *)
Lemma np_cov_two_rows (reading : single_row_reading)
      (r1 r2 : list npfloat) (rows : list (list npfloat)) (n : nat) :
  np_cov reading (r1 :: r2 :: rows) n = cov_of_columns (r1 :: r2 :: rows) n.
Proof. destruct reading; reflexivity. Qed.

(** [np.cov] has no such filter: a NaN after the first row reaches every
    covariance the asset takes part in, although the asset has valid
    return periods and a finite mean. *)
Example covariance_propagates_nan (reading : single_row_reading) :
  nanmean_axis0 two_assets_with_gap = [Fin 2; Fin 2]
  /\ return_covariance reading two_assets_with_gap
     = [[NaN; NaN]; [NaN; Fin 252]].
Proof.
  split.
  - unfold nanmean_axis0, Np.nanmean. np_eval. np_same.
  - unfold return_covariance, two_assets_with_gap.
    cbn [values tl ncols columns length].
    rewrite np_cov_two_rows.
    unfold cov_of_columns, cov_entry, centred, Np.dot. np_eval. np_same.
Qed.

(** ** Covariance of a single asset *)

(** One column always gives a zero-dimensional covariance. *)
Lemma np_cov_one_column (reading : single_row_reading)
      (rows : list (list npfloat)) :
  exists v, np_cov reading rows 1 = Scalar v.
Proof.
  unfold np_cov.
  destruct reading; [eexists; reflexivity |].
  destruct rows as [| r [| r' rows]]; eexists; reflexivity.
Qed.

Lemma return_covariance_one_column (reading : single_row_reading)
      (lr : DataFrame) :
  ncols lr = 1%nat -> return_covariance reading lr = [[Fin 252]].
Proof.
  intros H. unfold return_covariance. rewrite H.
  destruct (np_cov_one_column reading (tl (values lr))) as [v ->].
  reflexivity.
Qed.

Lemma volatility_of_one_asset_returns (reading : single_row_reading) :
  get_volatility reading one_asset_returns [Fin 1] = Fin (sqrt (126 / 25)).
Proof.
  unfold get_volatility, one_asset_returns.
  cbn [values tl ncols columns length].
  rewrite np_cov_two_rows.
  unfold cov_of_columns, cov_entry, centred, Np.dot. np_eval. np_same.
Qed.

(** C2: on [one_asset_returns] the sample variance is 0.02, so the claim
    asks for the covariance [[5.04]]; [compute_random_allocations] works
    with [[252]] instead, under either reading, while [get_volatility] on
    the same frame uses 252 times the variance. *)
Theorem C2_single_asset_covariance_is_252 (reading : single_row_reading) :
  252 * sample_variance [1 / 10; 3 / 10] = 126 / 25
  /\ return_covariance reading one_asset_returns = [[Fin 252]]
  /\ get_volatility reading one_asset_returns [Fin 1]
     = Fin (sqrt (126 / 25)).
Proof.
  split; [| split].
  - unfold sample_variance. cbn. lra.
  - now apply return_covariance_one_column.
  - apply volatility_of_one_asset_returns.
Qed.

(** ** The sampler *)

Lemma mat_ncols_cov_of_columns (rows : list (list npfloat)) (n : nat) :
  mat_ncols (match scale (Fin 252) (cov_of_columns rows n) with
             | Scalar _ => [[Fin 252]]
             | Matrix m => m
             end) = n.
Proof.
  destruct n as [| [| k]]; trivial.
  cbn. now rewrite !length_map, length_seq.
Qed.

(** The covariance has as many columns as there are assets, so the product
    with the weights does not fail on its shapes. *)
Lemma mat_ncols_return_covariance (reading : single_row_reading)
      (lr : DataFrame) :
  cov_has_asset_shape reading lr ->
  mat_ncols (return_covariance reading lr) = ncols lr.
Proof.
  unfold cov_has_asset_shape, return_covariance, np_cov, nrows.
  intros H.
  destruct reading; [apply mat_ncols_cov_of_columns |].
  destruct (values lr) as [| r0 [| r1 [| r2 rows]]]; cbn [tl];
    try apply mat_ncols_cov_of_columns.
  destruct H as [H | [H | H]]; [discriminate | now elim H |].
  now rewrite H.
Qed.

(** Under the other reading, a frame with a single observation row and a
    number of assets other than one gets the covariance [[252]]. *)
Lemma return_covariance_single_row (lr : DataFrame) :
  nrows lr = 2%nat -> return_covariance RowIsVariable lr = [[Fin 252]].
Proof.
  unfold nrows, return_covariance, np_cov.
  destruct (values lr) as [| r0 [| r1 [| r2 rows]]]; cbn; try discriminate.
  reflexivity.
Qed.

Lemma compute_random_allocations_cases (reading : single_row_reading)
      (rnd : nat -> nat -> R) (lr : DataFrame) (n : Z) :
  compute_random_allocations reading rnd lr n
  = if (n <? 0)%Z then Raise ValueError
    else if (mat_ncols (return_covariance reading lr) =? ncols lr)%nat
         then Ok (sampled_frame reading rnd lr n)
         else Raise ValueError.
Proof.
  unfold compute_random_allocations, sampled_frame.
  destruct (n <? 0)%Z; trivial.
  destruct (mat_ncols (return_covariance reading lr) =? ncols lr)%nat;
    reflexivity.
Qed.

Lemma compute_random_allocations_ok (reading : single_row_reading)
      (rnd : nat -> nat -> R) (lr : DataFrame) (n : Z) :
  (0 <= n)%Z -> cov_has_asset_shape reading lr ->
  compute_random_allocations reading rnd lr n
  = Ok (sampled_frame reading rnd lr n).
Proof.
  intros Hn Hshape. rewrite compute_random_allocations_cases.
  destruct (Z.ltb_spec n 0) as [Hneg | _]; [lia |].
  now rewrite (mat_ncols_return_covariance reading lr Hshape), Nat.eqb_refl.
Qed.

(** Where the two readings part: a frame with a single observation row
    and a number of assets other than one is refused under the reading of
    the row as one variable, whatever the count. *)
Lemma compute_random_allocations_single_row (rnd : nat -> nat -> R)
      (lr : DataFrame) (n : Z) :
  nrows lr = 2%nat -> ncols lr <> 1%nat ->
  compute_random_allocations RowIsVariable rnd lr n = Raise ValueError.
Proof.
  intros Hrows Hcols. rewrite compute_random_allocations_cases.
  destruct (n <? 0)%Z; trivial.
  rewrite (return_covariance_single_row lr Hrows). cbn [mat_ncols length].
  destruct (Nat.eqb_spec 1 (ncols lr)) as [H | _]; [| reflexivity].
  now elim Hcols.
Qed.

Lemma compute_random_allocations_inv (reading : single_row_reading)
      (rnd : nat -> nat -> R) (lr : DataFrame) (n : Z) (df : SampleFrame) :
  compute_random_allocations reading rnd lr n = Ok df ->
  (0 <= n)%Z /\ df = sampled_frame reading rnd lr n.
Proof.
  rewrite compute_random_allocations_cases.
  destruct (Z.ltb_spec n 0) as [Hneg | Hge]; [discriminate |].
  destruct (mat_ncols (return_covariance reading lr) =? ncols lr)%nat;
    [| discriminate].
  intros [= <-]. auto.
Qed.

Lemma length_zip_with {A B C : Type} (f : A -> B -> C)
      (l : list A) (l' : list B) :
  length l = length l' -> length (Np.zip_with f l l') = length l.
Proof.
  revert l'. induction l as [| a l IH]; intros [| b l'] H; cbn in *;
    try discriminate; trivial.
  f_equal. apply IH. lia.
Qed.

Lemma sampled_frame_rows (reading : single_row_reading)
      (rnd : nat -> nat -> R) (lr : DataFrame) (n : Z) :
  let df := sampled_frame reading rnd lr n in
  length (weights df) = Z.to_nat n
  /\ length (Return df) = Z.to_nat n
  /\ length (Volatility df) = Z.to_nat n
  /\ length (Sharpe df) = Z.to_nat n.
Proof.
  cbn. unfold random_matrix.
  rewrite length_zip_with; rewrite !length_map, length_seq; auto.
Qed.

(** C8, counterexample: a count of 0 is not refused; under either reading
    the sampler returns a frame with no row. *)
Lemma C8_zero_count_returns_empty_frame :
  under_both_readings (fun reading =>
    exists df,
      compute_random_allocations reading (fun _ _ => 1 / 2)
        one_asset_returns 0 = Ok df
      /\ weights df = [] /\ Return df = []
      /\ Volatility df = [] /\ Sharpe df = []).
Proof.
  split; (eexists; split; [reflexivity |]); cbn; tauto.
Qed.

(** C8, as amended: on every log-return frame whose covariance has the
    shape of the asset universe, the sampler fails exactly when the count
    is negative (numpy refuses the negative dimension with a
    [ValueError]); for every count that is not negative, 0 included, it
    returns a frame with exactly that many rows. *)
Theorem C8_sampler_row_count (reading : single_row_reading)
        (rnd : nat -> nat -> R) (lr : DataFrame) (n : Z) :
  cov_has_asset_shape reading lr ->
  ((exists e, compute_random_allocations reading rnd lr n = Raise e)
   <-> (n < 0)%Z)
  /\ ((n < 0)%Z ->
      compute_random_allocations reading rnd lr n = Raise ValueError)
  /\ ((0 <= n)%Z ->
      exists df,
        compute_random_allocations reading rnd lr n = Ok df
        /\ length (weights df) = Z.to_nat n
        /\ length (Return df) = Z.to_nat n
        /\ length (Volatility df) = Z.to_nat n
        /\ length (Sharpe df) = Z.to_nat n).
Proof.
  intros Hshape.
  assert (Hneg : (n < 0)%Z ->
            compute_random_allocations reading rnd lr n = Raise ValueError).
  { intros H. rewrite compute_random_allocations_cases.
    destruct (Z.ltb_spec n 0); [reflexivity | lia]. }
  assert (Hpos : (0 <= n)%Z ->
            compute_random_allocations reading rnd lr n
            = Ok (sampled_frame reading rnd lr n))
    by (intros H; now apply compute_random_allocations_ok).
  repeat split; trivial.
  - intros [e He]. destruct (Z.lt_ge_cases n 0) as [| Hge]; trivial.
    rewrite (Hpos Hge) in He. discriminate.
  - intros H. exists ValueError. auto.
  - intros H. exists (sampled_frame reading rnd lr n).
    split; [auto | apply sampled_frame_rows].
Qed.

(** A run of the sampler with three portfolios. *)
Lemma C8_sampler_row_count_witness :
  exists df,
    compute_random_allocations RowIsVariable (fun _ _ => 1 / 2)
      one_asset_returns 3 = Ok df
    /\ length (weights df) = 3%nat /\ length (Sharpe df) = 3%nat.
Proof.
  destruct (C8_sampler_row_count RowIsVariable (fun _ _ => 1 / 2)
              one_asset_returns 3) as (_ & _ & H).
  - right. right. reflexivity.
  - destruct H as (df & Hdf & Hw & _ & _ & Hs); [lia |].
    exists df. auto.
Defined.

(** ** Sampled weights *)

Lemma Rsum_nonneg (l : list R) : Forall (fun a => 0 <= a) l -> 0 <= Rsum l.
Proof.
  unfold Rsum. induction 1 as [| a l Ha _ IH]; cbn; lra.
Qed.

Lemma Rsum_ge_member (l : list R) (a : R) :
  Forall (fun b => 0 <= b) l -> In a l -> a <= Rsum l.
Proof.
  induction 1 as [| b l Hb Hl IH]; cbn; [tauto |].
  pose proof (Rsum_nonneg l Hl) as Hnn. fold (Rsum l).
  intros [-> | Hin]; [lra |]. specialize (IH Hin). lra.
Qed.

Lemma Rsum_map_div (l : list R) (s : R) :
  Rsum (map (fun a => a / s) l) = Rsum l / s.
Proof.
  unfold Rsum. induction l as [| a l IH]; cbn; [lra |]. rewrite IH. lra.
Qed.

Lemma normalize_map_Fin (l : list R) :
  Rsum l <> 0 ->
  normalize (map Fin l) = map Fin (map (fun a => a / Rsum l) l).
Proof.
  intros Hs. unfold normalize.
  rewrite sum_map_Fin, !map_map.
  apply map_ext. intros a. now apply div_fin.
Qed.

Lemma normalize_on_unit_simplex (l : list R) :
  Forall (fun a => 0 <= a) l -> 0 < Rsum l ->
  on_unit_simplex (normalize (map Fin l)).
Proof.
  intros Hl Hs. rewrite normalize_map_Fin by lra. split.
  - rewrite map_map. apply Forall_map, Forall_forall. intros a Ha. cbn.
    pose proof (Rsum_ge_member l a Hl Ha) as Hle.
    assert (H0 : 0 <= a) by (rewrite Forall_forall in Hl; auto).
    split.
    + apply Rmult_le_pos; [lra |].
      left. now apply Rinv_0_lt_compat.
    + apply (Rmult_le_reg_r (Rsum l)); [lra |].
      unfold Rdiv. rewrite Rmult_assoc, Rinv_l by lra. lra.
  - exists 1. split.
    + rewrite sum_map_Fin, Rsum_map_div. f_equal. field. lra.
    + replace (1 - 1) with 0 by lra. rewrite Rabs_R0.
      apply Rlt_le, Rdiv_lt_0_compat; [lra |]. apply pow_lt. lra.
Qed.

(** C3, counterexample: when the draw is exactly 0 (the generator's range
    is [0, 1)), the row sum is 0 and the normalized weight is 0/0 = NaN,
    which lies in no interval and adds up to no number. *)
Lemma C3_zero_draw_gives_nan_weight :
  under_both_readings (fun reading =>
    exists df,
      compute_random_allocations reading (fun _ _ => 0)
        one_asset_returns 1 = Ok df
      /\ weights df = [[NaN]]).
Proof.
  split; (eexists; split; [reflexivity |]);
    cbn; change (Pos.to_nat 1) with 1%nat;
    unfold normalize; np_eval; reflexivity.
Qed.

(** C3, as amended: every sampled weight vector whose raw draws (each in
    [0, 1]) have a positive sum has all its weights in [0, 1] and a sum
    equal to 1, in particular within 1e-9. *)
Theorem C3_sampled_weights_on_simplex (reading : single_row_reading)
        (rnd : nat -> nat -> R) (lr : DataFrame) (n : Z)
        (df : SampleFrame) (i : nat) (w : list npfloat) :
  (forall i j, 0 <= rnd i j <= 1) ->
  compute_random_allocations reading rnd lr n = Ok df ->
  nth_error (weights df) i = Some w ->
  0 < Rsum (map (rnd i) (seq 0 (ncols lr))) ->
  on_unit_simplex w.
Proof.
  intros Hrnd Hdf Hw Hsum.
  apply compute_random_allocations_inv in Hdf. destruct Hdf as [Hge ->].
  cbn in Hw. unfold random_matrix in Hw. rewrite map_map in Hw.
  rewrite nth_error_map in Hw.
  destruct (nth_error (seq 0 (Z.to_nat n)) i) as [k |] eqn:Hk;
    [| discriminate].
  injection Hw as <-.
  assert (Hi : (i < Z.to_nat n)%nat).
  { assert (Hs : nth_error (seq 0 (Z.to_nat n)) i <> None) by congruence.
    apply nth_error_Some in Hs. now rewrite length_seq in Hs. }
  rewrite (nth_error_nth' _ 0%nat) in Hk by (now rewrite length_seq).
  rewrite seq_nth in Hk by trivial. injection Hk as <-. cbn [plus].
  rewrite <- (map_map (rnd i) Fin).
  apply normalize_on_unit_simplex; trivial.
  apply Forall_map, Forall_forall. intros j _. apply Hrnd.
Qed.

Lemma C3_sampled_weights_on_simplex_witness :
  on_unit_simplex [Fin (1 / 2); Fin (1 / 2)].
Proof.
  apply (C3_sampled_weights_on_simplex RowIsObservation (fun _ _ => 1 / 2)
           two_assets_with_gap 1
           (mkSampleFrame ["A"%string; "B"%string]
              [[Fin (1 / 2); Fin (1 / 2)]]
              [Fin 504] [NaN] [NaN] [Fin 2; Fin 2] two_assets_with_gap)
           0).
  - intros _ _. lra.
  - rewrite compute_random_allocations_ok;
      [| lia | left; reflexivity].
    unfold sampled_frame.
    rewrite (proj2 (covariance_propagates_nan RowIsObservation)).
    rewrite (proj1 (covariance_propagates_nan RowIsObservation)).
    cbn. change (Pos.to_nat 1) with 1%nat.
    unfold normalize. np_eval. np_same.
  - reflexivity.
  - cbn. lra.
Defined.

(** ** Short price histories *)

Lemma nanmean_all_nan (l : list npfloat) :
  Forall (fun v => v = NaN) l -> Np.nanmean l = NaN.
Proof.
  intros H. unfold Np.nanmean.
  replace (filter (fun v => negb (Np.isnan v)) l) with (@nil npfloat).
  - np_eval. reflexivity.
  - induction H as [| v l -> _ IH]; cbn; trivial.
Qed.

Lemma nth_zip_with_nan (f : npfloat -> npfloat -> npfloat)
      (row : list npfloat) (k j : nat) :
  (forall p, f p NaN = NaN) ->
  nth j (Np.zip_with f row (repeat NaN k)) NaN = NaN.
Proof.
  intros Hf. revert k j.
  induction row as [| p row IH]; intros [| k] [| j]; cbn; trivial.
Qed.

Lemma log_div_nan (p : npfloat) : Np.log (Np.div p NaN) = NaN.
Proof. destruct p; reflexivity. Qed.

(** With fewer than two price rows every column of the log returns holds
    nothing but NaN. *)
Lemma log_ret_short_all_nan (stocks : DataFrame) (j : nat) :
  (nrows stocks < 2)%nat ->
  Forall (fun v => v = NaN) (column j (values (log_ret stocks))).
Proof.
  unfold nrows, log_ret, shift1. cbn [values].
  destruct (values stocks) as [| row [| row' rest]]; cbn; intros H;
    [constructor | | lia].
  constructor; [| constructor].
  apply nth_zip_with_nan, log_div_nan.
Qed.

(** C9, counterexample: neither a price history of one row nor one without
    any asset column is refused; under either reading both go through the
    estimator, the first with a NaN mean return and the covariance
    [[252]], the second with empty statistics. *)
Lemma C9_short_history_is_accepted :
  under_both_readings (fun reading =>
    (exists df,
        compute_random_allocations reading (fun _ _ => 1 / 2)
          (log_ret single_price) 1 = Ok df
        /\ attrs_mean_return df = [NaN]
        /\ return_covariance reading (log_ret single_price) = [[Fin 252]])
    /\ (exists df,
           compute_random_allocations reading (fun _ _ => 1 / 2)
             (log_ret no_asset_prices) 1 = Ok df
           /\ attrs_mean_return df = []
           /\ return_covariance reading (log_ret no_asset_prices) = [])).
Proof.
  split; (split; eexists; (split; [reflexivity |]); split;
          try reflexivity);
    cbn; unfold nanmean_axis0, Np.nanmean; np_eval; reflexivity.
Qed.

(** Under the reading of a single row as one variable, a price history of
    two days and two assets, which the claim counts as sufficient, makes
    the sampler fail on the shape of the covariance. *)
Example two_days_two_assets_fail :
  compute_random_allocations RowIsVariable (fun _ _ => 1 / 2)
    (log_ret two_days_two_assets) 1 = Raise ValueError.
Proof. reflexivity. Qed.

(** C9, as amended: no price history is refused for its size.  For every
    price frame on which the covariance has the shape of the asset
    universe, whatever its numbers of rows and of asset columns, and every
    count that is not negative, the estimator returns statistics with one
    mean return for each asset column; with fewer than two rows every mean
    return is NaN. *)
Theorem C9_estimator_accepts_every_history (reading : single_row_reading)
        (rnd : nat -> nat -> R) (stocks : DataFrame) (n : Z) :
  (0 <= n)%Z ->
  cov_has_asset_shape reading (log_ret stocks) ->
  exists df,
    compute_random_allocations reading rnd (log_ret stocks) n = Ok df
    /\ length (attrs_mean_return df) = ncols stocks
    /\ mat_ncols (return_covariance reading (log_ret stocks)) = ncols stocks
    /\ ((nrows stocks < 2)%nat ->
        Forall (fun m => m = NaN) (attrs_mean_return df)).
Proof.
  intros Hn Hshape.
  rewrite (compute_random_allocations_ok reading rnd _ n Hn Hshape).
  eexists. split; [reflexivity |]. cbn [attrs_mean_return sampled_frame].
  split; [| split].
  - unfold nanmean_axis0. now rewrite length_seq_map.
  - exact (mat_ncols_return_covariance reading (log_ret stocks) Hshape).
  - intros Hshort. unfold nanmean_axis0.
    apply Forall_map, Forall_forall. intros j _.
    apply nanmean_all_nan, log_ret_short_all_nan, Hshort.
Qed.

Lemma C9_estimator_accepts_every_history_witness :
  exists df,
    compute_random_allocations RowIsVariable (fun _ _ => 1 / 2)
      (log_ret single_price) 2 = Ok df
    /\ length (attrs_mean_return df) = ncols single_price
    /\ mat_ncols (return_covariance RowIsVariable (log_ret single_price))
       = ncols single_price
    /\ ((nrows single_price < 2)%nat ->
        Forall (fun m => m = NaN) (attrs_mean_return df)).
Proof.
  apply (C9_estimator_accepts_every_history RowIsVariable
           (fun _ _ => 1 / 2) single_price 2).
  - lia.
  - right. left. cbn. lia.
Defined.

(** ** Zero volatility *)

Lemma div_by_zero_not_finite (a : npfloat) :
  Np.isfinite (Np.div a (Fin 0)) = false.
Proof.
  destruct a as [r | | |]; cbn; try rewrite (sgn_zero 0) by trivial;
    trivial.
  destruct (Np.sgn r); reflexivity.
Qed.

Example volatility_of_constant_price (reading : single_row_reading) :
  get_volatility reading constant_price_returns [Fin 1] = Fin 0.
Proof.
  unfold get_volatility, constant_price_returns.
  cbn [values tl ncols columns length].
  rewrite np_cov_two_rows.
  unfold cov_of_columns, cov_entry, centred, Np.dot. np_eval.
  f_equal.
  match goal with |- sqrt ?a = 0 => replace a with 0 by lra end.
  apply sqrt_0.
Qed.

(** C7, counterexample: for one asset with zero variance and a mean daily
    return of 0.001, the volatility is 0 and the Sharpe ratio is computed
    all the same: the call succeeds and hands back plus infinity. *)
Lemma C7_sharpe_of_zero_volatility_is_returned :
  get_ret_vol_sr [Fin (1 / 1000)] [[Fin 0]] [Fin 1]
  = Ok [Fin (63 / 250); Fin 0; PInf].
Proof.
  unfold get_ret_vol_sr, Np.dot, Np.matvec. np_eval.
  replace (1 * (0 * 1 + 0) + 0) with 0 by lra.
  rewrite sqrt_0. np_eval. np_same.
Qed.

(** C7, as amended: whenever the quadratic form of the weights through the
    covariance is 0, the volatility is returned as 0 without error, and the
    Sharpe ratio is returned too, as the quotient of the return by 0: a
    value that is not finite (NaN or an infinity).  No error is raised. *)
Theorem C7_zero_volatility_sharpe_not_finite
        (mean : list npfloat) (cov : list (list npfloat))
        (w : list npfloat) :
  length mean = length w ->
  Forall (fun row => length row = length w) cov ->
  length cov = length w ->
  Np.dot w (Np.matvec cov w) = Fin 0 ->
  exists sr,
    get_ret_vol_sr mean cov w = Ok [get_return mean w; Fin 0; sr]
    /\ sr = Np.div (get_return mean w) (Fin 0)
    /\ Np.isfinite sr = false.
Proof.
  intros Hm Hrows Hc Hq. unfold get_ret_vol_sr.
  rewrite Hm, Hc, !Nat.eqb_refl.
  replace (forallb (fun row => (length row =? length w)%nat) cov)
    with true.
  - cbn [andb negb]. rewrite Hq, sqrt_fin by lra. rewrite sqrt_0.
    eexists. split; [reflexivity |]. split; [reflexivity |].
    apply div_by_zero_not_finite.
  - symmetry. apply forallb_forall. intros row Hin.
    rewrite Forall_forall in Hrows. apply Nat.eqb_eq. auto.
Qed.

Lemma C7_zero_volatility_sharpe_not_finite_witness :
  exists sr,
    get_ret_vol_sr [Fin (1 / 1000)] [[Fin 0]] [Fin 1]
    = Ok [get_return [Fin (1 / 1000)] [Fin 1]; Fin 0; sr]
    /\ sr = Np.div (get_return [Fin (1 / 1000)] [Fin 1]) (Fin 0)
    /\ Np.isfinite sr = false.
Proof.
  apply (C7_zero_volatility_sharpe_not_finite
           [Fin (1 / 1000)] [[Fin 0]] [Fin 1]).
  - reflexivity.
  - repeat constructor.
  - reflexivity.
  - unfold Np.dot, Np.matvec. cbn. f_equal. lra.
Defined.

(** ** The efficient frontier *)



(** The grid between two finite end points, for at least two points. *)
Lemma linspace_finite (lo hi : R) (m : nat) :
  linspace (Fin lo) (Fin hi) (Z.of_nat (S (S m)))
  = Ok (map (fun i => Fin (INR i * ((hi + - lo) / INR (S m)) + lo))
            (seq 0 (S m))
        ++ [Fin hi]).
Proof.
  unfold linspace.
  destruct (Z.ltb_spec (Z.of_nat (S (S m))) 0) as [H | _]; [lia |].
  rewrite Nat2Z.id. cbn [Np.sub Np.neg Np.add].
  rewrite div_fin by (apply not_0_INR; lia).
  reflexivity.
Qed.


Lemma combine_map_self {A B : Type} (f : A -> B) (l : list A) :
  length (combine (map f l) l) = length l
  /\ map snd (combine (map f l) l) = l
  /\ Forall (fun p => fst p = f (snd p)) (combine (map f l) l).
Proof.
  induction l as [| a l (IH1 & IH2 & IH3)]; cbn; [auto |].
  repeat split; [congruence | congruence | constructor; trivial].
Qed.





(** ** The closest allocation *)

Lemma or_zero_None : or_zero None = Fin 0.
Proof. reflexivity. Qed.

Lemma or_zero_zero : or_zero (Some (Fin 0)) = Fin 0.
Proof.
  unfold or_zero, Np.truthy. now rewrite (sgn_zero 0).
Qed.

Lemma or_zero_nonzero (a : R) : a <> 0 -> or_zero (Some (Fin a)) = Fin a.
Proof.
  intros Ha. unfold or_zero, Np.truthy.
  destruct (Np.sgn a) eqn:E; trivial.
  apply sgn_Eq_inv in E. contradiction.
Qed.

Lemma mean_of_one_asset_returns :
  nanmean_axis0 one_asset_returns = [Fin (1 / 5)].
Proof.
  unfold nanmean_axis0, Np.nanmean. np_eval. np_same.
Qed.

(** C5, counterexample: with both desired values absent the solver is not
    given the sum constraint alone.  It receives three equality
    constraints; at the weight vector [1], which satisfies the sum
    constraint, the other two evaluate to the return 50.4 and the
    volatility sqrt(5.04), both pinned to 0. *)
Lemma C5_constraints_kept_when_values_absent :
  under_both_readings (fun reading =>
    map ctype
        (constraints
           (best_allocation_problem reading one_asset_returns None None))
    = [eq_constraint; eq_constraint; eq_constraint]
    /\ map (fun c => cfun c [Fin 1])
           (constraints
              (best_allocation_problem reading one_asset_returns None None))
       = [Fin 0; Fin (252 / 5); Fin (sqrt (126 / 25))]).
Proof.
  split; (split; [reflexivity |]);
    cbn [best_allocation_problem constraints map cfun or_zero];
    rewrite mean_of_one_asset_returns, volatility_of_one_asset_returns;
    unfold check_sum, get_return; np_eval; np_same.
Qed.

(** C5, as amended: in every call, whether the desired volatility and
    return are supplied, absent or zero, the solver receives the same three
    equality constraints (the weights sum to 1, the return equals the
    desired return, the volatility equals the desired volatility) and the
    objective |desired return - return| + |desired volatility -
    volatility|, where an absent or zero desired value counts as 0 and any
    other value as itself. *)
Theorem C5_constraints_always_pinned (reading : single_row_reading)
        (log_return : DataFrame) (vol ret : option npfloat)
        (w : list npfloat) :
  let p := best_allocation_problem reading log_return vol ret in
  let mean_return := nanmean_axis0 log_return in
  map ctype (constraints p) = [eq_constraint; eq_constraint; eq_constraint]
  /\ map (fun c => cfun c w) (constraints p)
     = [ Np.sub (Np.sum w) (Fin 1);
         Np.sub (get_return mean_return w) (or_zero ret);
         Np.sub (get_volatility reading log_return w) (or_zero vol) ]
  /\ objective p w
     = Np.add (Np.abs (Np.sub (or_zero ret) (get_return mean_return w)))
              (Np.abs (Np.sub (or_zero vol)
                         (get_volatility reading log_return w)))
  /\ or_zero None = Fin 0
  /\ or_zero (Some (Fin 0)) = Fin 0
  /\ (forall a, a <> 0 -> or_zero (Some (Fin a)) = Fin a).
Proof.
  cbn zeta. repeat split.
  - apply or_zero_zero.
  - apply or_zero_nonzero.
Qed.

(** C6: with both desired values absent, [find_best_allocation] returns
    what it returns for a desired volatility and a desired return of 0. *)
Theorem C6_absent_is_zero (reading : single_row_reading)
        (minimize : MinimizeProblem -> OptimizeResult)
        (log_return : DataFrame) :
  find_best_allocation reading minimize log_return None None
  = find_best_allocation reading minimize log_return
      (Some (Fin 0)) (Some (Fin 0)).
Proof.
  unfold find_best_allocation, best_allocation_problem.
  now rewrite or_zero_zero, or_zero_None.
Qed.

Lemma length_uniform_guess (cols : nat) : length (uniform_guess cols) = cols.
Proof. apply repeat_length. Qed.

(** C10: for every query, under a solver that returns as many weights as
    its initial guess holds, [find_best_allocation] returns a Series whose
    allocation is the solver's solution, whose Return entry is [get_return]
    of that allocation and whose Volatility entry is [get_volatility] of
    that allocation: the realized metrics, not the requested ones. *)
Theorem C10_point_reports_realized_metrics (reading : single_row_reading)
        (minimize : MinimizeProblem -> OptimizeResult)
        (log_return : DataFrame) (vol ret : option npfloat) :
  (forall p, length (x (minimize p)) = length (x0 p)) ->
  exists s,
    find_best_allocation reading minimize log_return vol ret = Ok s
    /\ allocation_of s
       = x (minimize (best_allocation_problem reading log_return vol ret))
    /\ return_of s
       = get_return (nanmean_axis0 log_return) (allocation_of s)
    /\ volatility_of s = get_volatility reading log_return (allocation_of s).
Proof.
  intros Hshape. unfold find_best_allocation.
  set (opt := minimize (best_allocation_problem reading log_return vol ret)).
  assert (Hlen : length (x opt) = ncols log_return).
  { unfold opt. rewrite Hshape. apply length_uniform_guess. }
  rewrite Hlen, Nat.eqb_refl. cbn [negb].
  eexists. split; [reflexivity |].
  set (ret' := get_return (nanmean_axis0 log_return) (x opt)).
  set (vol' := get_volatility reading log_return (x opt)).
  assert (Hlens : length (columns log_return
                          ++ ["Return"%string; "Volatility"%string])
                  = length (x opt ++ [ret'; vol'])).
  { rewrite !length_app, Hlen. reflexivity. }
  assert (Hsnd : map snd (combine (columns log_return
                                   ++ ["Return"%string; "Volatility"%string])
                                  (x opt ++ [ret'; vol']))
                 = x opt ++ [ret'; vol']).
  { generalize dependent (x opt ++ [ret'; vol']).
    generalize (columns log_return
                ++ ["Return"%string; "Volatility"%string]).
    induction l as [| a l IH]; intros [| b l'] H; cbn in *;
      try discriminate; trivial.
    f_equal. apply IH. lia. }
  assert (Hs : length (combine (columns log_return
                                ++ ["Return"%string; "Volatility"%string])
                               (x opt ++ [ret'; vol']))
               = (length (x opt) + 2)%nat).
  { rewrite length_combine, <- Hlens, Nat.min_id, length_app, Hlen.
    reflexivity. }
  assert (Halloc : allocation_of
                     (combine (columns log_return
                               ++ ["Return"%string; "Volatility"%string])
                              (x opt ++ [ret'; vol']))
                   = x opt).
  { unfold allocation_of. rewrite Hs, Hsnd.
    replace (length (x opt) + 2 - 2)%nat with (length (x opt) + 0)%nat
      by lia.
    rewrite firstn_app_2. cbn. apply app_nil_r. }
  rewrite Halloc. split; [reflexivity |].
  unfold return_of, volatility_of. rewrite Hs, Hsnd.
  split.
  - replace (length (x opt) + 2 - 2)%nat with (length (x opt)) by lia.
    apply nth_middle.
  - replace (length (x opt) + 2 - 1)%nat with (length (x opt) + 1)%nat
      by lia.
    now rewrite app_nth2_plus.
Qed.

Lemma C10_point_reports_realized_metrics_witness :
  exists s,
    find_best_allocation RowIsObservation solver_no_step one_asset_returns
      (Some (Fin 1)) (Some (Fin 1)) = Ok s
    /\ allocation_of s
       = x (solver_no_step
              (best_allocation_problem RowIsObservation one_asset_returns
                 (Some (Fin 1)) (Some (Fin 1))))
    /\ return_of s
       = get_return (nanmean_axis0 one_asset_returns) (allocation_of s)
    /\ volatility_of s
       = get_volatility RowIsObservation one_asset_returns (allocation_of s).
Proof.
  apply (C10_point_reports_realized_metrics RowIsObservation solver_no_step
           one_asset_returns (Some (Fin 1)) (Some (Fin 1))).
  intros p. reflexivity.
Defined.

(** With the solver stopped at the uniform guess, a request for a return
    of 1 is answered with the realized return 50.4 of the weights, not with
    the requested value. *)
Example realized_return_differs_from_request :
  exists s,
    find_best_allocation RowIsObservation solver_no_step one_asset_returns
      (Some (Fin 1)) (Some (Fin 1)) = Ok s
    /\ return_of s = Fin (252 / 5).
Proof.
  eexists. split; [reflexivity |].
  unfold return_of. cbn [length combine app columns one_asset_returns
                          map snd Nat.sub nth x solver_no_step x0
                          best_allocation_problem uniform_guess repeat ncols].
  rewrite mean_of_one_asset_returns.
  unfold get_return. np_eval. np_same.
Qed.

(** * Further properties of the notebook's code *)

(** ** The sum constraint *)

(** X1: [check_sum] is 0 exactly when the weights add up to 1; in
    particular it is not 0 when the sum is not a finite number. *)
Theorem check_sum_zero_iff (w : list npfloat) :
  check_sum w = Fin 0 <-> Np.sum w = Fin 1.
Proof.
  unfold check_sum, Np.sub.
  destruct (Np.sum w) as [r | | |]; cbn; split; intros H;
    try discriminate.
  - injection H as H. f_equal. lra.
  - injection H as ->. f_equal. lra.
Qed.

(** ** The sampled frame and the metric functions *)



(** A row of the sampled weights is the normalized row of draws. *)
Lemma sampled_row (reading : single_row_reading) (rnd : nat -> nat -> R)
      (lr : DataFrame) (n : Z) (df : SampleFrame) (i : nat)
      (w : list npfloat) :
  compute_random_allocations reading rnd lr n = Ok df ->
  nth_error (weights df) i = Some w ->
  df = sampled_frame reading rnd lr n
  /\ (i < Z.to_nat n)%nat
  /\ w = normalize (map Fin (map (rnd i) (seq 0 (ncols lr)))).
Proof.
  intros Hdf Hw.
  apply compute_random_allocations_inv in Hdf. destruct Hdf as [Hge ->].
  split; trivial.
  cbn in Hw. unfold random_matrix in Hw. rewrite map_map in Hw.
  rewrite nth_error_map in Hw.
  destruct (nth_error (seq 0 (Z.to_nat n)) i) as [k |] eqn:Hk;
    [| discriminate].
  injection Hw as <-.
  assert (Hi : (i < Z.to_nat n)%nat).
  { assert (Hs : nth_error (seq 0 (Z.to_nat n)) i <> None) by congruence.
    apply nth_error_Some in Hs. now rewrite length_seq in Hs. }
  rewrite (nth_error_nth' _ 0%nat) in Hk by (now rewrite length_seq).
  rewrite seq_nth in Hk by trivial. injection Hk as <-. cbn [plus].
  split; trivial. now rewrite map_map.
Qed.



Lemma compute_random_allocations_shape (reading : single_row_reading)
      (rnd : nat -> nat -> R) (lr : DataFrame) (n : Z) (df : SampleFrame) :
  compute_random_allocations reading rnd lr n = Ok df ->
  mat_ncols (return_covariance reading lr) = ncols lr.
Proof.
  rewrite compute_random_allocations_cases.
  destruct (n <? 0)%Z; [discriminate |].
  destruct (Nat.eqb_spec (mat_ncols (return_covariance reading lr))
              (ncols lr)); [trivial | discriminate].
Qed.

(** With a number of assets other than one, a sampler that returns works
    with the covariance matrix [np.cov(...) * 252] itself. *)
Lemma scaled_cov_is_matrix (reading : single_row_reading) (lr : DataFrame) :
  ncols lr <> 1%nat ->
  mat_ncols (return_covariance reading lr) = ncols lr ->
  scale (Fin 252) (np_cov reading (tl (values lr)) (ncols lr))
  = Matrix (return_covariance reading lr).
Proof.
  unfold return_covariance, np_cov. intros Hn.
  assert (Hcols : forall rows,
            scale (Fin 252) (cov_of_columns rows (ncols lr))
            = Matrix match scale (Fin 252) (cov_of_columns rows (ncols lr))
                     with
                     | Scalar _ => [[Fin 252]]
                     | Matrix m => m
                     end).
  { intros rows. destruct (ncols lr) as [| [| k]];
      [reflexivity | now elim Hn | reflexivity]. }
  destruct reading; [intros _; apply Hcols |].
  destruct (tl (values lr)) as [| r [| r' rows]];
    try (intros _; apply Hcols).
  cbn. intros H. elim Hn. now symmetry.
Qed.

(** X3: with a number of assets other than one, the Volatility of every
    sampled row is [get_volatility] of the log returns and the row's
    weights.  (With exactly one asset the two differ: the sampler then
    works with the constant covariance [[252]].) *)
Theorem sampled_volatility_is_get_volatility
        (reading : single_row_reading) (rnd : nat -> nat -> R)
        (lr : DataFrame) (n : Z) (df : SampleFrame) (i : nat)
        (w : list npfloat) :
  ncols lr <> 1%nat ->
  compute_random_allocations reading rnd lr n = Ok df ->
  nth_error (weights df) i = Some w ->
  nth_error (Volatility df) i
  = Some (get_volatility reading (attrs_log_return df) w).
Proof.
  intros Hn Hdf Hw.
  pose proof (compute_random_allocations_shape reading rnd lr n df Hdf)
    as Hshape.
  destruct (sampled_row reading rnd lr n df i w Hdf Hw) as (-> & _ & _).
  cbn in *. rewrite nth_error_map, Hw. cbn.
  unfold get_volatility.
  now rewrite (scaled_cov_is_matrix reading lr Hn Hshape).
Qed.

Lemma sampled_volatility_is_get_volatility_witness :
  nth_error
    (Volatility (sampled_frame RowIsObservation (fun _ _ => 1 / 2)
                   two_assets_with_gap 1)) 0
  = Some (get_volatility RowIsObservation
            (attrs_log_return
               (sampled_frame RowIsObservation (fun _ _ => 1 / 2)
                  two_assets_with_gap 1))
            (normalize [Fin (1 / 2); Fin (1 / 2)])).
Proof.
  apply (sampled_volatility_is_get_volatility RowIsObservation
           (fun _ _ => 1 / 2) two_assets_with_gap 1).
  - cbn. lia.
  - apply compute_random_allocations_ok; [lia | left; reflexivity].
  - reflexivity.
Defined.

(** X4: with exactly one asset and a draw other than 0, every sampled
    portfolio is the same: its weight is 1 and its Volatility is
    sqrt(252), whatever the log returns are. *)
Theorem one_asset_sample_is_constant (reading : single_row_reading)
        (rnd : nat -> nat -> R) (lr : DataFrame) (n : Z)
        (df : SampleFrame) (i : nat) (w : list npfloat) :
  ncols lr = 1%nat ->
  rnd i 0%nat <> 0 ->
  compute_random_allocations reading rnd lr n = Ok df ->
  nth_error (weights df) i = Some w ->
  w = [Fin 1] /\ nth_error (Volatility df) i = Some (Fin (sqrt 252)).
Proof.
  intros Hone Hrnd Hdf Hw.
  destruct (sampled_row reading rnd lr n df i w Hdf Hw) as (-> & _ & Hrow).
  assert (Hw1 : w = [Fin 1]).
  { rewrite Hrow, Hone. unfold normalize, Np.sum.
    cbn [seq map fold_right Np.add].
    rewrite (div_fin (rnd i 0%nat) (rnd i 0%nat + 0)) by lra.
    do 2 f_equal. field. lra. }
  split; trivial.
  cbn in *. rewrite nth_error_map, Hw. cbn.
  rewrite (return_covariance_one_column reading lr Hone), Hw1.
  unfold Np.matvec, Np.dot, Np.sum.
  cbn [map Np.zip_with fold_right Np.mul Np.add].
  rewrite sqrt_fin by lra.
  do 3 f_equal. lra.
Qed.

Lemma one_asset_sample_is_constant_witness :
  normalize [Fin (1 / 2)] = [Fin 1]
  /\ nth_error
       (Volatility (sampled_frame RowIsObservation (fun _ _ => 1 / 2)
                      one_asset_returns 1)) 0
     = Some (Fin (sqrt 252)).
Proof.
  apply (one_asset_sample_is_constant RowIsObservation (fun _ _ => 1 / 2)
           one_asset_returns 1).
  - reflexivity.
  - lra.
  - apply compute_random_allocations_ok; [lia | left; reflexivity].
  - reflexivity.
Defined.

(** ** Sharpe ratio and volatility as objectives *)

Lemma le_mul_minus_one (a b : npfloat) :
  Np.le (Np.mul a (Fin (-1))) (Np.mul b (Fin (-1))) <-> Np.le b a.
Proof.
  destruct a as [r | | |], b as [r' | | |]; cbn;
    rewrite ?(sgn_neg (-1)) by lra; cbn; try tauto.
  split; intros H; lra.
Qed.

Lemma get_ret_vol_sr_length (mean : list npfloat)
      (cov : list (list npfloat)) (w arr : list npfloat) :
  get_ret_vol_sr mean cov w = Ok arr ->
  arr = [get_return mean w;
         Np.sqrt (Np.dot w (Np.matvec cov w));
         Np.div (get_return mean w) (Np.sqrt (Np.dot w (Np.matvec cov w)))].
Proof.
  unfold get_ret_vol_sr.
  destruct (negb _); [discriminate |]. now intros [= <-].
Qed.

(** X5: [neg_sharpe] reverses the order of the Sharpe ratios: between two
    weight vectors that [get_ret_vol_sr] accepts, the one with the smaller
    [neg_sharpe] is the one with the larger Sharpe ratio, so a minimizer of
    [neg_sharpe] maximizes the Sharpe ratio. *)
Theorem neg_sharpe_reverses_order (mean : list npfloat)
        (cov : list (list npfloat)) (w1 w2 a1 a2 : list npfloat) :
  get_ret_vol_sr mean cov w1 = Ok a1 ->
  get_ret_vol_sr mean cov w2 = Ok a2 ->
  exists n1 n2,
    neg_sharpe mean cov w1 = Ok n1
    /\ neg_sharpe mean cov w2 = Ok n2
    /\ (Np.le n1 n2 <-> Np.le (nth 2 a2 NaN) (nth 2 a1 NaN)).
Proof.
  intros H1 H2. unfold neg_sharpe. rewrite H1, H2.
  eexists _, _. split; [reflexivity |]. split; [reflexivity |].
  apply le_mul_minus_one.
Qed.

Lemma neg_sharpe_reverses_order_witness :
  exists n1 n2,
    neg_sharpe [Fin 1] [[Fin 1]] [Fin 1] = Ok n1
    /\ neg_sharpe [Fin 1] [[Fin 1]] [Fin 2] = Ok n2
    /\ (Np.le n1 n2
        <-> Np.le (nth 2 [Fin 504; Fin 2; Fin 252] NaN)
                  (nth 2 [Fin 252; Fin 1; Fin 252] NaN)).
Proof.
  apply (neg_sharpe_reverses_order [Fin 1] [[Fin 1]] [Fin 1] [Fin 2]).
  - unfold get_ret_vol_sr, Np.dot, Np.matvec. np_eval.
    replace (1 * (1 * 1 + 0) + 0) with 1 by lra.
    rewrite sqrt_1. np_eval. np_same.
  - unfold get_ret_vol_sr, Np.dot, Np.matvec. np_eval.
    replace (2 * (1 * 2 + 0) + 0) with (2 * 2) by lra.
    rewrite sqrt_square by lra. np_eval. np_same.
Defined.

Lemma sqrt_not_negative (v : npfloat) : not_negative (Np.sqrt v).
Proof.
  destruct v as [r | | |]; cbn; trivial.
  destruct (Np.sgn r); cbn; trivial; apply sqrt_pos.
Qed.

(** X6: a volatility is never negative and never minus infinity: whatever
    the log returns and the weights, [get_volatility] is a finite number at
    least 0, plus infinity or NaN, and so is the volatility entry of
    [get_ret_vol_sr], the value [minimize_volatility] returns. *)
Theorem volatility_not_negative (reading : single_row_reading)
        (lr : DataFrame) (mean : list npfloat)
        (cov : list (list npfloat)) (w : list npfloat) :
  not_negative (get_volatility reading lr w)
  /\ match minimize_volatility mean cov w with
     | Ok v => not_negative v
     | Raise _ => True
     end.
Proof.
  split.
  - apply sqrt_not_negative.
  - unfold minimize_volatility.
    destruct (get_ret_vol_sr mean cov w) as [arr | e] eqn:E; trivial.
    rewrite (get_ret_vol_sr_length mean cov w arr E).
    apply sqrt_not_negative.
Qed.

(** ** The objective of the closest allocation *)

Lemma abs_add_abs_not_negative (a b : npfloat) :
  not_negative (Np.add (Np.abs a) (Np.abs b)).
Proof.
  destruct a as [r | | |], b as [r' | | |]; cbn; trivial.
  pose proof (Rabs_pos r). pose proof (Rabs_pos r'). lra.
Qed.

Lemma abs_add_abs_zero (a b : npfloat) :
  Np.add (Np.abs a) (Np.abs b) = Fin 0 <-> a = Fin 0 /\ b = Fin 0.
Proof.
  destruct a as [r | | |], b as [r' | | |]; cbn; split;
    try (intros [H1 H2]); try intros H; try discriminate.
  - injection H as H.
    pose proof (Rabs_pos r) as Hr. pose proof (Rabs_pos r') as Hr'.
    assert (H0 : Rabs r = 0) by lra. assert (H0' : Rabs r' = 0) by lra.
    split; f_equal.
    + destruct (Req_dec r 0) as [| Hn]; trivial.
      apply Rabs_no_R0 in Hn. contradiction.
    + destruct (Req_dec r' 0) as [| Hn]; trivial.
      apply Rabs_no_R0 in Hn. contradiction.
  - injection H1 as ->. injection H2 as ->.
    rewrite Rabs_R0. f_equal. lra.
Qed.

Lemma sub_fin_zero (d : R) (v : npfloat) :
  Np.sub (Fin d) v = Fin 0 <-> v = Fin d.
Proof.
  destruct v as [r | | |]; cbn; split; intros H; try discriminate.
  - injection H as H. f_equal. lra.
  - injection H as ->. f_equal. lra.
Qed.

Lemma minimize_difference_zero (reading : single_row_reading)
      (w : list npfloat) (des_vol des_ret : R) (lr : DataFrame)
      (mean : list npfloat) :
  minimize_difference reading w (Fin des_vol) (Fin des_ret) lr mean = Fin 0
  <-> get_return mean w = Fin des_ret
      /\ get_volatility reading lr w = Fin des_vol.
Proof.
  unfold minimize_difference.
  rewrite abs_add_abs_zero, !sub_fin_zero. tauto.
Qed.

(** X7: the objective [minimize_difference] is never negative, and for
    finite desired values it is 0 exactly at the weights whose return and
    volatility are the desired ones. *)
Theorem minimize_difference_zero_iff (reading : single_row_reading)
        (w : list npfloat) (des_vol des_ret : R) (lr : DataFrame)
        (mean : list npfloat) :
  not_negative
    (minimize_difference reading w (Fin des_vol) (Fin des_ret) lr mean)
  /\ (minimize_difference reading w (Fin des_vol) (Fin des_ret) lr mean
      = Fin 0
      <-> get_return mean w = Fin des_ret
          /\ get_volatility reading lr w = Fin des_vol).
Proof.
  split.
  - apply abs_add_abs_not_negative.
  - apply minimize_difference_zero.
Qed.

(** ** The initial guess of the solver *)






(** ** The grid of the frontier *)


Lemma linspace_finite_nth (lo hi : R) (m k : nat) :
  (k <= S m)%nat ->
  exists r,
    nth k (map (fun i => Fin (INR i * ((hi + - lo) / INR (S m)) + lo))
               (seq 0 (S m))
           ++ [Fin hi]) NaN = Fin r
    /\ r = lo + INR k * (hi - lo) / INR (S m).
Proof.
  intros Hk.
  assert (Hm : INR (S m) <> 0) by (apply not_0_INR; lia).
  destruct (Nat.eq_dec k (S m)) as [-> | Hne].
  - exists hi. split.
    + rewrite app_nth2 by (rewrite length_seq_map; lia).
      rewrite length_seq_map, Nat.sub_diag. reflexivity.
    + field. trivial.
  - eexists. split.
    + rewrite app_nth1 by (rewrite length_seq_map; lia).
      rewrite (nth_indep _ NaN
                 (Fin (INR 0 * ((hi + - lo) / INR (S m)) + lo)))
        by (rewrite length_seq_map; lia).
      rewrite (map_nth
                 (fun i => Fin (INR i * ((hi + - lo) / INR (S m)) + lo))).
      rewrite seq_nth by lia. reflexivity.
    + cbn [plus]. field. trivial.
Qed.

(** X10: when the sampled returns have a finite minimum [lo] and a finite
    maximum [hi], the target returns of a frontier of n >= 2 points are
    equally spaced from [lo] to [hi]: the target of row k is
    lo + k (hi - lo) / (n - 1), so the first is [lo] and the last [hi]. *)
Theorem frontier_targets_equally_spaced (reading : single_row_reading)
        (minimize : MinimizeProblem -> OptimizeResult)
        (df : SampleFrame) (n : Z) (lo hi : R) :
  (2 <= n)%Z ->
  Np.series_min (Return df) = Fin lo ->
  Np.series_max (Return df) = Fin hi ->
  exists curve,
    compute_frontier reading minimize df n = Ok curve
    /\ forall k,
         (k < Z.to_nat n)%nat ->
         exists r,
           nth k (map snd curve) NaN = Fin r
           /\ r = lo + INR k * (hi - lo) / INR (Z.to_nat n - 1).
Proof.
  intros Hn Hlo Hhi. unfold compute_frontier. rewrite Hlo, Hhi.
  destruct (Z.to_nat n) as [| [| m]] eqn:Hm; try lia.
  replace n with (Z.of_nat (S (S m))) by lia.
  rewrite linspace_finite.
  set (grid := map _ (seq 0 (S m)) ++ [Fin hi]).
  destruct (combine_map_self
              (fun r => fun_ (minimize (frontier_problem reading df r))) grid)
    as (_ & Hsnd & _).
  eexists. split; [reflexivity |].
  rewrite Hsnd. intros k Hk.
  replace (S (S m) - 1)%nat with (S m) by lia.
  apply linspace_finite_nth. lia.
Qed.

Lemma frontier_targets_equally_spaced_witness :
  exists curve,
    compute_frontier RowIsObservation solver_no_step two_point_sample 3
    = Ok curve
    /\ forall k,
         (k < Z.to_nat 3)%nat ->
         exists r,
           nth k (map snd curve) NaN = Fin r
           /\ r = 1 + INR k * (2 - 1) / INR (Z.to_nat 3 - 1).
Proof.
  apply (frontier_targets_equally_spaced RowIsObservation solver_no_step
           two_point_sample 3 1 2).
  - lia.
  - cbn. f_equal. unfold Rmin. destruct (Rle_dec 1 2); lra.
  - cbn. f_equal. unfold Rmax. destruct (Rle_dec 1 2); lra.
Defined.

(** ** Log returns *)

Lemma length_removelast_cons {A : Type} (a : A) (l : list A) :
  length (removelast (a :: l)) = length l.
Proof.
  revert a. induction l as [| b l IH]; intros a; trivial.
  change (removelast (a :: b :: l)) with (a :: removelast (b :: l)).
  cbn [length]. now rewrite IH.
Qed.

Lemma length_shift1 (df : DataFrame) :
  length (shift1 df) = length (values df).
Proof.
  unfold shift1. destruct (values df) as [| r rows]; trivial.
  cbn [length]. now rewrite length_removelast_cons.
Qed.

Lemma zip_with_nan_all_nan (f : npfloat -> npfloat -> npfloat)
      (row : list npfloat) (k : nat) :
  (forall p, f p NaN = NaN) ->
  Forall (fun v => v = NaN) (Np.zip_with f row (repeat NaN k)).
Proof.
  intros Hf. revert k.
  induction row as [| p row IH]; intros [| k]; cbn; constructor; auto.
Qed.

(** X11: [log_ret] keeps the shape of the price frame: the same columns
    and the same number of rows, not one row fewer; its first row holds
    nothing but NaN (the reason why the covariance is taken over
    [log_return[1:]] and the mean with [np.nanmean]). *)
Theorem log_ret_shape (stocks : DataFrame) :
  columns (log_ret stocks) = columns stocks
  /\ nrows (log_ret stocks) = nrows stocks
  /\ Forall (fun v => v = NaN) (hd [] (values (log_ret stocks))).
Proof.
  split; [reflexivity |]. split.
  - unfold nrows, log_ret. cbn [values].
    apply length_zip_with. now rewrite length_shift1.
  - unfold log_ret, shift1. cbn [values].
    destruct (values stocks) as [| r rows]; cbn; [constructor |].
    apply zip_with_nan_all_nan, log_div_nan.
Qed.













(** ** Symmetry of the covariance *)

Lemma mul_comm (a b : npfloat) : Np.mul a b = Np.mul b a.
Proof.
  destruct a as [r | | |], b as [r' | | |]; cbn; trivial.
  f_equal. apply Rmult_comm.
Qed.

Lemma dot_comm (u v : list npfloat) : Np.dot u v = Np.dot v u.
Proof.
  unfold Np.dot. f_equal. revert v.
  induction u as [| a u IH]; intros [| b v]; cbn; trivial.
  now rewrite mul_comm, IH.
Qed.

Lemma cov_entry_sym (rows : list (list npfloat)) (i j : nat) :
  cov_entry rows i j = cov_entry rows j i.
Proof. unfold cov_entry. now rewrite dot_comm. Qed.

Lemma nth_map_seq {A : Type} (F : nat -> A) (n i : nat) (d : A) :
  nth i (map F (seq 0 n)) d = if (i <? n)%nat then F i else d.
Proof.
  destruct (Nat.ltb_spec i n) as [Hlt | Hge].
  - rewrite (nth_indep _ d (F 0%nat)) by (now rewrite length_seq_map).
    rewrite (map_nth F). now rewrite seq_nth.
  - apply nth_overflow. now rewrite length_seq_map.
Qed.

(** The entries of a square table built over [seq 0 n]. *)
Lemma mat_entry_table (g : npfloat -> npfloat)
      (e : nat -> nat -> npfloat) (n i j : nat) :
  mat_entry
    (map (map g) (map (fun i => map (fun j => e i j) (seq 0 n)) (seq 0 n)))
    i j
  = if ((i <? n) && (j <? n))%nat then g (e i j) else NaN.
Proof.
  unfold mat_entry. rewrite map_map, nth_map_seq.
  destruct (i <? n)%nat; cbn [andb].
  - rewrite map_map, nth_map_seq. reflexivity.
  - now destruct j.
Qed.

Lemma return_covariance_cases (reading : single_row_reading)
      (lr : DataFrame) :
  return_covariance reading lr = [[Fin 252]]
  \/ exists rows n,
       return_covariance reading lr
       = map (map (fun v => Np.mul v (Fin 252)))
           (map (fun i => map (fun j => cov_entry rows i j) (seq 0 n))
              (seq 0 n)).
Proof.
  unfold return_covariance, np_cov.
  assert (H : forall rows,
            match scale (Fin 252) (cov_of_columns rows (ncols lr)) with
            | Scalar _ => [[Fin 252]]
            | Matrix m => m
            end = [[Fin 252]]
            \/ exists rows' n,
                 match scale (Fin 252) (cov_of_columns rows (ncols lr)) with
                 | Scalar _ => [[Fin 252]]
                 | Matrix m => m
                 end
                 = map (map (fun v => Np.mul v (Fin 252)))
                     (map (fun i => map (fun j => cov_entry rows' i j)
                                        (seq 0 n))
                        (seq 0 n))).
  { intros rows. destruct (ncols lr) as [| [| k]]; cbn [cov_of_columns scale];
      [right | left | right]; trivial; exists rows; eexists; reflexivity. }
  destruct reading; [apply H |].
  destruct (tl (values lr)) as [| r [| r' rows]]; try apply H.
  left. reflexivity.
Qed.

(** X13: the covariance matrix the sampler works with is symmetric, entry
    by entry and whatever the log returns hold (NaN and infinities
    included). *)
Theorem return_covariance_symmetric (reading : single_row_reading)
        (lr : DataFrame) (i j : nat) :
  mat_entry (return_covariance reading lr) i j
  = mat_entry (return_covariance reading lr) j i.
Proof.
  destruct (return_covariance_cases reading lr) as [-> | (rows & n & ->)].
  - destruct i as [| [| i]], j as [| [| j]]; reflexivity.
  - rewrite !mat_entry_table, (andb_comm (j <? n)%nat).
    now rewrite cov_entry_sym.
Qed.

(** ** The Series of the closest allocation *)

Lemma map_fst_combine {A B : Type} (l : list A) (l' : list B) :
  length l = length l' -> map fst (combine l l') = l.
Proof.
  revert l'. induction l as [| a l IH]; intros [| b l'] H; cbn in *;
    try discriminate; trivial.
  f_equal. apply IH. lia.
Qed.

(** X14: [find_best_allocation] returns a Series exactly when the solver's
    solution has one weight for each asset, and raises [ValueError]
    otherwise; the Series is labelled with the asset names followed by
    Return and Volatility, so it has two entries more than there are
    assets. *)
Theorem find_best_allocation_labels (reading : single_row_reading)
        (minimize : MinimizeProblem -> OptimizeResult)
        (log_return : DataFrame) (vol ret : option npfloat) :
  let opt := minimize (best_allocation_problem reading log_return vol ret) in
  (length (x opt) = ncols log_return ->
   exists s,
     find_best_allocation reading minimize log_return vol ret = Ok s
     /\ map fst s
        = columns log_return ++ ["Return"%string; "Volatility"%string]
     /\ length s = (ncols log_return + 2)%nat)
  /\ (length (x opt) <> ncols log_return ->
      find_best_allocation reading minimize log_return vol ret
      = Raise ValueError).
Proof.
  cbn zeta. unfold find_best_allocation. split; intros H.
  - rewrite H, Nat.eqb_refl. cbn [negb].
    eexists. split; [reflexivity |].
    assert (Hlen : length (columns log_return
                           ++ ["Return"%string; "Volatility"%string])
              = length
                  (x (minimize
                        (best_allocation_problem reading log_return vol ret))
                   ++ [get_return (nanmean_axis0 log_return)
                         (x (minimize
                               (best_allocation_problem reading log_return
                                  vol ret)));
                       get_volatility reading log_return
                         (x (minimize
                               (best_allocation_problem reading log_return
                                  vol ret)))])).
    { rewrite !length_app, H. reflexivity. }
    split.
    + now apply map_fst_combine.
    + rewrite length_combine, <- Hlen, Nat.min_id, length_app. reflexivity.
  - destruct (Nat.eqb_spec
                (length (x (minimize
                              (best_allocation_problem reading log_return
                                 vol ret))))
                (ncols log_return)); [contradiction | reflexivity].
Qed.

(** ** Return of an allocation on the simplex *)






(** ** Value of the portfolio on the start date *)




(** ** Volatility of finite data *)




















(** ** Objective and constraints of the closest allocation *)

Lemma sub_zero_fin (v : npfloat) (d : R) :
  Np.sub v (Fin d) = Fin 0 <-> v = Fin d.
Proof.
  destruct v as [r | | |]; cbn; split; intros H; try discriminate.
  - injection H as H. f_equal. lra.
  - injection H as ->. f_equal. lra.
Qed.

Lemma or_zero_finite (v : option npfloat) :
  match v with Some PInf | Some NInf | Some NaN => False | _ => True end ->
  exists d, or_zero v = Fin d.
Proof.
  destruct v as [[r | | |] |]; cbn; try contradiction; intros _.
  - destruct (Np.sgn r); eauto.
  - eauto.
Qed.

(** X18: in the problem [find_best_allocation] hands to the solver, for
    desired values that are absent or finite, the objective is 0 at a
    weight vector exactly when the two constraints that pin the return and
    the volatility are satisfied there: on the feasible set the objective
    is identically 0. *)
Theorem objective_zero_iff_pinned (reading : single_row_reading)
        (log_return : DataFrame) (vol ret : option npfloat)
        (w : list npfloat) :
  match vol with Some PInf | Some NInf | Some NaN => False | _ => True end ->
  match ret with Some PInf | Some NInf | Some NaN => False | _ => True end ->
  let p := best_allocation_problem reading log_return vol ret in
  objective p w = Fin 0
  <-> Forall (fun c => cfun c w = Fin 0) (tl (constraints p)).
Proof.
  intros Hvol Hret.
  destruct (or_zero_finite vol Hvol) as [dv Hdv].
  destruct (or_zero_finite ret Hret) as [dr Hdr].
  cbn zeta. unfold best_allocation_problem.
  cbn [objective constraints tl cfun]. rewrite Hdv, Hdr.
  rewrite (minimize_difference_zero reading w dv dr log_return
             (nanmean_axis0 log_return)).
  split.
  - intros [H1 H2]. repeat constructor; cbn [cfun];
      now apply sub_zero_fin.
  - intros H. inversion H as [| ? ? H1 H']; subst.
    inversion H' as [| ? ? H2 _]; subst. cbn [cfun] in *.
    split; now apply sub_zero_fin.
Qed.

Lemma objective_zero_iff_pinned_witness :
  let p := best_allocation_problem RowIsObservation one_asset_returns
             None (Some (Fin 1)) in
  objective p [Fin 1] = Fin 0
  <-> Forall (fun c => cfun c [Fin 1] = Fin 0) (tl (constraints p)).
Proof.
  apply (objective_zero_iff_pinned RowIsObservation one_asset_returns
           None (Some (Fin 1)) [Fin 1]); exact I.
Defined.

(** ** The range of the frontier *)

Lemma series_min_below (l : list npfloat) (r : R) :
  In (Fin r) l ->
  match Np.series_min l with
  | Fin lo => lo <= r
  | NInf => True
  | PInf | NaN => False
  end.
Proof.
  induction l as [| v l IH]; [intros [] |].
  change (Np.series_min (v :: l)) with (Np.min2 v (Np.series_min l)).
  intros [-> | Hin].
  - destruct (Np.series_min l) as [b | | |]; cbn; trivial;
      try apply Rmin_l; lra.
  - specialize (IH Hin).
    destruct v as [a | | |], (Np.series_min l) as [b | | |]; cbn in *;
      trivial; try contradiction.
    pose proof (Rmin_r a b). lra.
Qed.

Lemma series_max_above (l : list npfloat) (r : R) :
  In (Fin r) l ->
  match Np.series_max l with
  | Fin hi => r <= hi
  | PInf => True
  | NInf | NaN => False
  end.
Proof.
  induction l as [| v l IH]; [intros [] |].
  change (Np.series_max (v :: l)) with (Np.max2 v (Np.series_max l)).
  intros [-> | Hin].
  - destruct (Np.series_max l) as [b | | |]; cbn; trivial;
      try apply Rmax_l; lra.
  - specialize (IH Hin).
    destruct v as [a | | |], (Np.series_max l) as [b | | |]; cbn in *;
      trivial; try contradiction.
    pose proof (Rmax_r a b). lra.
Qed.

(** X19: when the sampled returns have a finite minimum and maximum, the
    frontier of n >= 2 points spans them all: every finite sampled return
    lies between the target return of the first row of the frontier and
    the target return of its last row. *)
Theorem frontier_spans_sampled_returns (reading : single_row_reading)
        (minimize : MinimizeProblem -> OptimizeResult)
        (df : SampleFrame) (n : Z) (lo hi r : R) :
  (2 <= n)%Z ->
  Np.series_min (Return df) = Fin lo ->
  Np.series_max (Return df) = Fin hi ->
  In (Fin r) (Return df) ->
  exists curve,
    compute_frontier reading minimize df n = Ok curve
    /\ nth 0 (map snd curve) NaN = Fin lo
    /\ nth (Z.to_nat n - 1) (map snd curve) NaN = Fin hi
    /\ lo <= r <= hi.
Proof.
  intros Hn Hlo Hhi Hin.
  pose proof (series_min_below _ r Hin) as Hmin.
  pose proof (series_max_above _ r Hin) as Hmax.
  rewrite Hlo in Hmin. rewrite Hhi in Hmax.
  unfold compute_frontier. rewrite Hlo, Hhi.
  destruct (Z.to_nat n) as [| [| m]] eqn:Hm; try lia.
  replace n with (Z.of_nat (S (S m))) by lia.
  rewrite linspace_finite.
  set (grid := map _ (seq 0 (S m)) ++ [Fin hi]).
  destruct (combine_map_self
              (fun t => fun_ (minimize (frontier_problem reading df t))) grid)
    as (_ & Hsnd & _).
  eexists. split; [reflexivity |].
  rewrite Hsnd. repeat split; trivial.
  - unfold grid. cbn [seq map app nth]. f_equal.
    change (INR 0) with 0. lra.
  - unfold grid. replace (S (S m) - 1)%nat with (S m) by lia.
    rewrite app_nth2 by (rewrite length_seq_map; lia).
    rewrite length_seq_map, Nat.sub_diag. reflexivity.
Qed.

Lemma frontier_spans_sampled_returns_witness :
  exists curve,
    compute_frontier RowIsObservation solver_no_step two_point_sample 3
    = Ok curve
    /\ nth 0 (map snd curve) NaN = Fin 1
    /\ nth (Z.to_nat 3 - 1) (map snd curve) NaN = Fin 2
    /\ 1 <= 2 <= 2.
Proof.
  apply (frontier_spans_sampled_returns RowIsObservation solver_no_step
           two_point_sample 3 1 2 2).
  - lia.
  - cbn. f_equal. unfold Rmin. destruct (Rle_dec 1 2); lra.
  - cbn. f_equal. unfold Rmax. destruct (Rle_dec 1 2); lra.
  - cbn. tauto.
Defined.
